(** * polyrat: barycentric Lagrange bases and the companion-pencil root solver

    A shallow embedding of [polyrat/lagrange.py] (functions [lagrange_roots],
    [LagrangePolynomialBasis.__init__], [.vandermonde], [.roots]) and of the
    class [Polynomial] of [polyrat/polynomial.py].

    Conventions of the embedding.
    - Python exceptions are values of [Py.exn]; a computation that may raise
      has type [Py.result A].  The assertions of the source raise
      [AssertionError] with the message written in the source.
    - numpy scalars are the carrier [C] of the class [NumpyScalar]: the
      arithmetic kernel of numpy is an interface, and a statement that needs
      exact arithmetic says so with the hypothesis [ExactArithmetic].
    - a one-dimensional array is a [list C]; a two-dimensional array is a
      [matrix] (its two extents and its entries); an array handed in by a
      caller, whose number of axes is not known, is an [ndarray].
    - a global name of the module is looked up in [globals]; a name that the
      module never binds raises [NameError]. *)

From Stdlib Require Import String ZArith QArith Qabs Qcanon Lia Lra Psatz Bool Arith List.
From Stdlib Require Import Field Ring.
Import ListNotations.
Local Open Scope string_scope.
Local Open Scope nat_scope.

(** ** Python exceptions and the error monad *)

Module Py.

Inductive exn : Type :=
| AssertionError (msg : string)
| NameError (name : string)
| IndexError
| TypeError
| ValueError
| AxisError
| LinAlgError.

Inductive result (A : Type) : Type :=
| Ok (a : A)
| Raise (e : exn).

Arguments Ok {A} a.
Arguments Raise {A} e.

Definition bind {A B : Type} (m : result A) (k : A -> result B) : result B :=
  match m with
  | Ok a => k a
  | Raise e => Raise e
  end.

(** [assert cond, msg] *)
Definition assert (cond : bool) (msg : string) : result unit :=
  if cond then Ok tt else Raise (AssertionError msg).

Definition returns {A : Type} (m : result A) : bool :=
  match m with Ok _ => true | Raise _ => false end.

End Py.

Import Py.

Declare Scope py_scope.
Delimit Scope py_scope with py.
Notation "x <- m ;; k" := (Py.bind m (fun x => k))
  (at level 61, m at next level, right associativity) : py_scope.
Notation "m ;;; k" := (Py.bind m (fun _ => k))
  (at level 61, right associativity) : py_scope.
Local Open Scope py_scope.

(** ** The scalar kernel of numpy

    [C] stands for numpy's complex128 (a float64 is a [C] too).  The
    operations are the ones [lagrange.py] applies to scalars, element by
    element on arrays. *)

Class NumpyScalar (C : Type) : Type := {
  zero : C;
  one : C;
  (** the literal [1j] *)
  imag_unit : C;
  (** the literal [1e-10] *)
  lit_1e_10 : C;
  add : C -> C -> C;
  sub : C -> C -> C;
  mul : C -> C -> C;
  div : C -> C -> C;
  neg : C -> C;
  (** [z.conjugate()] and [z.imag] *)
  conjugate : C -> C;
  imag : C -> C;
  np_abs : C -> C;
  np_sqrt : C -> C;
  np_exp : C -> C;
  np_angle : C -> C;
  np_isfinite : C -> bool;
  (** [x < y] on real scalars *)
  lt : C -> C -> bool;
  (** [np.linalg.norm] of a one-dimensional array *)
  norm : list C -> C
}.

(** Exact arithmetic: the scalars form a field.  Floating-point numbers do
    not; statements that carry this hypothesis are about the algebra of the
    algorithm. *)
Definition ExactArithmetic (C : Type) `{NumpyScalar C} : Prop :=
  field_theory zero one add mul sub neg div (fun x => div one x) (@eq C).

Section Arrays.

Context {C : Type} `{NumpyScalar C}.

(** *** One-dimensional arrays *)

(** [np.prod(v)]: [multiply.reduce], left to right, with identity [1]. *)
Definition np_prod (v : list C) : C := fold_left mul v one.

(** [np.sum]-like accumulation used by the matrix product. *)
Definition np_sum (v : list C) : C := fold_left add v zero.

(** [v[i]] for an index known to be in range. *)
Definition elt (v : list C) (i : nat) : C := nth i v zero.

(** *** Two-dimensional arrays *)

Record matrix : Type := Matrix {
  nrows : nat;
  ncols : nat;
  entry : nat -> nat -> C
}.

(** [M[i, j]] with numpy's bounds check. *)
Definition item (M : matrix) (i j : nat) : result C :=
  if (i <? nrows M) && (j <? ncols M) then Ok (entry M i j) else Raise IndexError.

Definition np_zeros (r c : nat) : matrix := Matrix r c (fun _ _ => zero).

Definition np_eye (n : nat) : matrix :=
  Matrix n n (fun i j => if i =? j then one else zero).

(** [np.diag(v)] of a one-dimensional array. *)
Definition np_diag (v : list C) : matrix :=
  Matrix (length v) (length v) (fun i j => if i =? j then elt v i else zero).

(** [M[i0:, j0:] = B], for [B] of the shape of the slice. *)
Definition set_block (i0 j0 : nat) (B M : matrix) : matrix :=
  Matrix (nrows M) (ncols M) (fun i j =>
    if (i0 <=? i) && (i <? i0 + nrows B) && (j0 <=? j) && (j <? j0 + ncols B)
    then entry B (i - i0) (j - j0) else entry M i j).

(** [M[i, j] = x] *)
Definition set_item (i j : nat) (x : C) (M : matrix) : matrix :=
  Matrix (nrows M) (ncols M) (fun i' j' =>
    if (i' =? i) && (j' =? j) then x else entry M i' j').

(** [M[i, j0:j0+len(v)] = v] *)
Definition set_row_slice (i j0 : nat) (v : list C) (M : matrix) : matrix :=
  Matrix (nrows M) (ncols M) (fun i' j' =>
    if (i' =? i) && (j0 <=? j') && (j' <? j0 + length v)
    then elt v (j' - j0) else entry M i' j').

(** [M[i0:i0+len(v), j] = v] *)
Definition set_col_slice (i0 j : nat) (v : list C) (M : matrix) : matrix :=
  Matrix (nrows M) (ncols M) (fun i' j' =>
    if (j' =? j) && (i0 <=? i') && (i' <? i0 + length v)
    then elt v (i' - i0) else entry M i' j').

(** [M[1:, 0]], a one-dimensional array. *)
Definition col0_from1 (M : matrix) : list C :=
  map (fun i => entry M i 0) (seq 1 (nrows M - 1)).

(** [M[1:, 1:]] *)
Definition from1 (M : matrix) : matrix :=
  Matrix (nrows M - 1) (ncols M - 1) (fun i j => entry M (S i) (S j)).

(** [A @ B] and [A.dot(B)] *)
Definition matmul (A B : matrix) : matrix :=
  Matrix (nrows A) (ncols B) (fun i j =>
    np_sum (map (fun k => mul (entry A i k) (entry B k j)) (seq 0 (ncols A)))).

(** [M.T.conjugate()] *)
Definition conj_transpose (M : matrix) : matrix :=
  Matrix (ncols M) (nrows M) (fun i j => conjugate (entry M j i)).

(** [np.outer(u, v)] *)
Definition np_outer (u v : list C) : matrix :=
  Matrix (length u) (length v) (fun i j => mul (elt u i) (elt v j)).

(** Element-wise operations on matrices of one shape. *)
Definition mat_map (f : C -> C) (M : matrix) : matrix :=
  Matrix (nrows M) (ncols M) (fun i j => f (entry M i j)).

Definition mat_sub (A B : matrix) : matrix :=
  Matrix (nrows A) (ncols A) (fun i j => sub (entry A i j) (entry B i j)).

(** The entries of a matrix, row by row. *)
Definition to_rows (M : matrix) : list (list C) :=
  map (fun i => map (fun j => entry M i j) (seq 0 (ncols M))) (seq 0 (nrows M)).

End Arrays.

Arguments matrix C : clear implicits.

(** ** Arrays handed in by a caller *)

(** An [ndarray] as numpy stores it: the extents of its axes and its entries
    in row-major order.  [np.array(nodes)] of a nested sequence is the array
    of the same shape.  This is the base class [numpy.ndarray]; the subclass
    [numpy.matrix], whose [flatten] keeps two axes, is not an [ndarray]
    here. *)
Record ndarray (C : Type) : Type := NdArray {
  shape : list nat;
  data : list C
}.

Arguments NdArray {C} shape data.
Arguments shape {C} _.
Arguments data {C} _.

(** The number of entries of an array of a given shape. *)
Definition size_of (sh : list nat) : nat := fold_right Nat.mul 1 sh.

Definition well_formed {C : Type} (a : ndarray C) : Prop :=
  length (data a) = size_of (shape a).

(** [a.ndim] *)
Definition ndim {C : Type} (a : ndarray C) : nat := length (shape a).

(** [len(a)]: the extent of the first axis; a zero-dimensional array has
    none ("len() of unsized object"). *)
Definition py_len {C : Type} (a : ndarray C) : result nat :=
  match shape a with
  | [] => Raise TypeError
  | d :: _ => Ok d
  end.

(** [a.flatten()]: the entries as a one-dimensional array. *)
Definition flatten {C : Type} (a : ndarray C) : list C := data a.

(** A one-dimensional array as an [ndarray]. *)
Definition array1 {C : Type} (v : list C) : ndarray C := NdArray [length v] v.

(** ** [LagrangePolynomialBasis] *)

Record LagrangePolynomialBasis (C : Type) : Type := Basis {
  nodes : list C;
  weights : list C
}.

Arguments Basis {C} nodes weights.
Arguments nodes {C} _.
Arguments weights {C} _.

(** The array [V] of [vandermonde]: numpy decides at run time how many axes
    it has. *)
Inductive varray (C : Type) : Type :=
| Vec (v : list C)
| Mat (m : list (list C)).

Arguments Vec {C} v.
Arguments Mat {C} m.

Section Basis.

Context {C : Type} `{NumpyScalar C}.

(** [np.prod(nodes[k] - nodes[0:k]) * np.prod(nodes[k] - nodes[k+1:])] *)
Definition weight_denominator (xs : list C) (k : nat) : C :=
  mul (np_prod (map (fun x => sub (elt xs k) x) (firstn k xs)))
      (np_prod (map (fun x => sub (elt xs k) x) (skipn (k + 1) xs))).

(** [LagrangePolynomialBasis.__init__(self, nodes)] *)
Definition init (nodes0 : ndarray C) : result (LagrangePolynomialBasis C) :=
  let self_nodes := flatten nodes0 in
  n <- py_len nodes0 ;;
  assert (n =? length self_nodes) "Input must be one-dimensional" ;;;
  let self_weights :=
    map (fun d => div one d)
        (map (weight_denominator self_nodes) (seq 0 (length self_nodes))) in
  Ok (Basis self_nodes self_weights).

(** [np.hstack(cols)] of one-dimensional arrays: numpy concatenates them
    along their only axis, and refuses an empty sequence. *)
Definition np_hstack (cols : list (list C)) : result (varray C) :=
  match cols with
  | [] => Raise ValueError
  | _ => Ok (Vec (concat cols))
  end.

(** [np.all(np.isfinite(V), axis = 1)]: an array with one axis has no
    axis 1. *)
Definition all_finite_axis1 (V : varray C) : result (list bool) :=
  match V with
  | Vec _ => Raise AxisError
  | Mat m => Ok (map (forallb np_isfinite) m)
  end.

(** [np.argwhere(~ok)]: the indices of the rows that are not all finite. *)
Definition argwhere_not (ok : list bool) : list nat :=
  map fst (filter (fun p => negb (snd p)) (combine (seq 0 (length ok)) ok)).

(** [np.argmin(d)]: the first index of a least entry. *)
Fixpoint argmin_from (d : list C) (i best : nat) (least : C) : nat :=
  match d with
  | [] => best
  | y :: d' => if lt y least then argmin_from d' (S i) i y
               else argmin_from d' (S i) best least
  end.

Definition np_argmin (d : list C) : nat :=
  match d with
  | [] => 0
  | y :: d' => argmin_from d' 1 0 y
  end.

Definition update {A : Type} (i : nat) (x : A) (l : list A) : list A :=
  firstn i l ++ match skipn i l with [] => [] | _ :: t => x :: t end.

(** The body of the loop: [V[row] = 0] and then
    [V[row, np.argmin(np.abs(x[row] - self.nodes)).flatten()] = 1.] *)
Definition replace_row (self : LagrangePolynomialBasis C) (x : list C)
    (V : varray C) (row : nat) : result (varray C) :=
  match V with
  | Vec v => Raise IndexError
  | Mat m =>
      let j := np_argmin (map (fun n => np_abs (sub (elt x row) n)) (nodes self)) in
      let zeroed := map (fun _ => zero) (nth row m []) in
      Ok (Mat (update row (update j one zeroed) m))
  end.

Fixpoint for_rows (self : LagrangePolynomialBasis C) (x : list C)
    (rows : list nat) (V : varray C) : result (varray C) :=
  match rows with
  | [] => Ok V
  | row :: rest => V' <- replace_row self x V row ;; for_rows self x rest V'
  end.

(** [LagrangePolynomialBasis.vandermonde(self, X)] *)
Definition vandermonde (self : LagrangePolynomialBasis C) (X : ndarray C)
    : result (varray C) :=
  let x := flatten X in
  n <- py_len X ;;
  assert (length x =? n) "Input must be one dimensional" ;;;
  V <- np_hstack (map (fun nw => map (fun xi => div (snd nw) (sub xi (fst nw))) x)
                      (combine (nodes self) (weights self))) ;;
  ok <- all_finite_axis1 V ;;
  for_rows self x (argwhere_not ok) V.

End Basis.

(** ** The module's global names *)

(** What the global names used by [lagrange_roots] and not bound by numpy
    are bound to: [None] is a name the module does not bind.  [hessenberg]
    and [eigvals] are the functions of [scipy.linalg]; [warnings] is the
    standard module. *)
Record globals (C : Type) : Type := Globals {
  g_hessenberg : option (matrix C -> result (matrix C * matrix C));
  g_eigvals : option (matrix C -> matrix C -> result (list C));
  g_warnings : option unit
}.

Arguments Globals {C} g_hessenberg g_eigvals g_warnings.
Arguments g_hessenberg {C} _.
Arguments g_eigvals {C} _.
Arguments g_warnings {C} _.

(** The namespace of [lagrange.py] as it is written: the module imports
    [numpy as np] and [PolynomialBasis] and defines [lagrange_roots] and
    [LagrangePolynomialBasis]; it binds none of the three names. *)
Definition module_globals {C : Type} : globals C := Globals None None None.

(** [LOAD_GLOBAL name] *)
Definition load_global {A : Type} (name : string) (binding : option A) : result A :=
  match binding with
  | Some v => Ok v
  | None => Raise (NameError name)
  end.

(** ** Standard output *)

(** The value of a call together with what it printed: each line is the
    text and the number passed to [print]. *)
Record outcome (C A : Type) : Type := Outcome {
  stdout : list (string * C);
  value : result A
}.

Arguments Outcome {C A} stdout value.
Arguments stdout {C A} _.
Arguments value {C A} _.

Section Roots.

Context {C : Type} `{NumpyScalar C}.

Definition two : C := add one one.

(** [[[a, b], [c, d]]] *)
Definition mat2 (a b c d : C) : matrix C :=
  Matrix 2 2 (fun i j =>
    match i, j with
    | 0, 0 => a | 0, _ => b
    | _, 0 => c | _, _ => d
    end).

(** [M[i0:, j0:] = B] for a [B] that comes from outside: numpy refuses a
    right-hand side that does not fit the slice (only a right-hand side of
    the shape of the slice is accepted here, as [scipy.linalg.hessenberg]
    returns). *)
Definition assign_block (i0 j0 : nat) (B M : matrix C) : result (matrix C) :=
  if (nrows B =? nrows M - i0) && (ncols B =? ncols M - j0)
  then Ok (set_block i0 j0 B M) else Raise ValueError.

(** Lines 12-36: the pencil [(C0, C1)], scaled and balanced, and the scaled
    [coef]. *)
Definition pencil (nodes weights coef : list C) : matrix C * matrix C * list C :=
  let n := length nodes in
  let C0 := np_zeros (n + 1) (n + 1) in
  let C0 := set_block 1 1 (np_diag nodes) C0 in
  let C1 := np_eye (n + 1) in
  let C1 := set_item 0 0 zero C1 in
  let coef := map (fun a => div a (norm coef)) coef in
  let weights := map (fun w => div w (norm weights)) weights in
  let C0 := set_row_slice 0 1 coef C0 in
  let C0 := set_col_slice 1 0 weights C0 in
  let s := one :: map (fun wa => if lt zero (np_abs (snd wa))
                                 then np_sqrt (np_abs (div (fst wa) (snd wa)))
                                 else one)
                      (combine weights coef) in
  let C0 := matmul (matmul (np_diag (map (fun sj => div one sj) s)) C0) (np_diag s) in
  (C0, C1, coef).

(** Lines 67-72: the Givens rotation [G5] built from [H1]. *)
Definition givens (n : nat) (H1 : matrix C) : result (matrix C) :=
  let G5 := np_eye n in
  a <- item H1 0 0 ;;
  b <- item H1 1 0 ;;
  let c := div a (np_sqrt (add (mul a a) (mul b b))) in
  let s := div b (np_sqrt (add (mul a a) (mul b b))) in
  Ok (set_block 0 0 (mat2 (conjugate c) (conjugate s) (neg s) c) G5).

(** Lines 46-80: the branch [if deflation:]. *)
Definition deflation_branch (g : globals C) (n : nat) (C0 C1 : matrix C)
    : result (list C) :=
  z <- item C0 1 0 ;;
  assert (lt (np_abs (imag z)) lit_1e_10) "C0[1,0]: %g + I %g" ;;;
  let u := col0_from1 C0 in
  let u := update 0 (add (elt u 0) (norm (col0_from1 C0))) u in
  let H := mat_sub (np_eye n)
             (mat_map (fun x => div x (mul (norm u) (norm u)))
                (mat_map (mul two) (np_outer u (map conjugate u)))) in
  let G2 := np_zeros (n + 1) (n + 1) in
  let G2 := set_item 0 0 one G2 in
  let G2 := set_block 1 1 H G2 in
  let C0 := matmul (matmul G2 C0) G2 in
  let C1 := matmul (matmul G2 C1) G2 in
  hessenberg <- load_global "hessenberg" (g_hessenberg g) ;;
  H1P1 <- hessenberg (from1 C0) ;;
  let P1 := snd H1P1 in
  let G3 := np_zeros (n + 1) (n + 1) in
  let G3 := set_item 0 0 one G3 in
  G3 <- assign_block 1 1 (conj_transpose P1) G3 ;;
  let G4 := np_eye (n + 1) in
  let G4 := set_block 0 0 (mat2 zero one one zero) G4 in
  let H1 := from1 (matmul G4 (matmul G3 (matmul C0 (conj_transpose G3)))) in
  let B1 := from1 (matmul G4 (matmul G3 (matmul C1 (conj_transpose G3)))) in
  G5 <- givens n H1 ;;
  let H2 := from1 (matmul G5 H1) in
  let B2 := from1 (matmul G5 B1) in
  eigvals <- load_global "eigvals" (g_eigvals g) ;;
  eigvals H2 B2.

(** Lines 81-91: the branch [else:]. *)
Definition fallback_branch (g : globals C) (C0 C1 : matrix C) (coef : list C)
    : result (list C) :=
  load_global "warnings" (g_warnings g) ;;;
  eigvals <- load_global "eigvals" (g_eigvals g) ;;
  ew <- eigvals C0 C1 ;;
  let ew := filter np_isfinite ew in
  assert (Z.of_nat (length ew) =? Z.of_nat (length coef) - 1)%Z
         "Error: too many infinite eigenvalues encountered" ;;;
  Ok ew.

(** [lagrange_roots(nodes, weights, coef, deflation = True)] *)
Definition lagrange_roots (g : globals C) (nodes weights coef : list C)
    (deflation : bool) : outcome C (list C) :=
  let n := length nodes in
  match assert ((n =? length weights) && (n =? length coef))
               "Dimensions of nodes, weights, and coef should be the same" with
  | Raise e => Outcome [] (Raise e)
  | Ok _ =>
      let '(C0, C1, coef) := pencil nodes weights coef in
      (* Apply a rotation to make the first weight real *)
      match item C0 1 0 with
      | Raise e => Outcome [] (Raise e)
      | Ok z =>
          let angle := np_angle z in
          let '(C0, printed, deflation) :=
            if np_isfinite angle
            then (set_col_slice 1 0
                    (map (fun w => mul w (np_exp (mul (neg imag_unit) angle)))
                         (col0_from1 C0)) C0,
                  [], deflation)
            else (C0, [("Rotation failed", angle)], false) in
          Outcome printed
            (if deflation then deflation_branch g n C0 C1
             else fallback_branch g C0 C1 coef)
      end
  end.

(** [LagrangePolynomialBasis.roots(self, coef, deflation = True)] *)
Definition roots (g : globals C) (self : LagrangePolynomialBasis C)
    (coef : list C) (deflation : bool) : outcome C (list C) :=
  lagrange_roots g (nodes self) (weights self) coef deflation.

End Roots.

(** ** Two models of the scalar kernel

    The statements below hold for every [NumpyScalar].  Two models are used
    to evaluate the code on concrete inputs: Gaussian rationals, an exact
    field, and the same numbers extended with the special values of
    IEEE 754.  In both, the four arithmetic operations are exact and the
    square root, the exponential and the trigonometric functions are rounded
    to a rational (they are exact where the result is rational and the
    rounding keeps it: [sqrt 1 = 1], [cos 0 = 1], [arctan2 0 0 = 0]). *)

Module QLibm.

Local Open Scope Q_scope.

(** Rounding to thirty decimal places. *)
Definition round (q : Q) : Q :=
  Qred ((Qnum q * 10 ^ 30 / Zpos (Qden q))%Z # (10 ^ 30)%positive).

(** The square root, exact on squares of rationals. *)
Definition qsqrt (q : Q) : Q :=
  let r := Qred q in
  match Qnum r with
  | Zpos n =>
      Qred (Z.sqrt (Zpos n * Zpos (Qden r) * 10 ^ 40) # (Qden r * 10 ^ 20)%positive)
  | _ => 0
  end.

(** [1 - y2/(k(k+1)) * (1 - y2/((k+2)(k+3)) * ...)] *)
Fixpoint alternating (y2 : Q) (k : Z) (steps : nat) : Q :=
  match steps with
  | O => 1
  | S m => 1 - y2 / inject_Z (k * (k + 1)) * alternating y2 (k + 2) m
  end.

Definition qcos (y : Q) : Q := round (alternating (y * y) 1 24).
Definition qsin (y : Q) : Q := round (y * alternating (y * y) 2 24).

(** [1 + x/k * (1 + x/(k+1) * ...)] *)
Fixpoint exp_series (x : Q) (k : Z) (steps : nat) : Q :=
  match steps with
  | O => 1
  | S m => 1 + x / inject_Z k * exp_series x (k + 1) m
  end.

Definition qexp (x : Q) : Q := round (exp_series x 1 40).

Definition pi : Q := 3141592653589793238462643383279 # (10 ^ 30)%positive.

(** [1/k - t2 * (1/(k+2) - t2 * ...)] *)
Fixpoint atan_series (t2 : Q) (k : Z) (steps : nat) : Q :=
  match steps with
  | O => 0
  | S m => 1 / inject_Z k - t2 * atan_series t2 (k + 2) m
  end.

(** [arctan t = 2 arctan (t / (1 + sqrt (1 + t^2)))] brings [t] near 0. *)
Definition halve (t : Q) : Q := Qred (t / (1 + qsqrt (1 + t * t))).

Definition qatan_small (t : Q) : Q :=
  let t' := halve (halve (halve t)) in
  round (8 * (t' * atan_series (t' * t') 1 16)).

Definition qatan (t : Q) : Q :=
  if Qle_bool (Qabs t) 1 then qatan_small t
  else if Qle_bool 0 t then Qred (pi / 2 - qatan_small (1 / t))
  else Qred (- (pi / 2) - qatan_small (1 / t)).

Definition Qlt_bool (x y : Q) : bool := negb (Qle_bool y x).

(** [arctan2 y x], with [arctan2 0 0 = 0]. *)
Definition qatan2 (y x : Q) : Q :=
  if Qlt_bool 0 x then qatan (y / x)
  else if Qlt_bool x 0 then
    (if Qle_bool 0 y then Qred (qatan (y / x) + pi) else Qred (qatan (y / x) - pi))
  else if Qlt_bool 0 y then Qred (pi / 2)
  else if Qlt_bool y 0 then Qred (- (pi / 2))
  else 0.

End QLibm.

(** *** Gaussian rationals: exact arithmetic, every value finite *)

Module GaussQ.

Import QLibm.
Local Open Scope Qc_scope.

Definition t : Type := (Qc * Qc)%type.

Definition of_Q (q : Q) : t := (Q2Qc q, 0).
Definition re (z : t) : Q := this (fst z).
Definition im (z : t) : Q := this (snd z).

Definition gadd (x y : t) : t := (fst x + fst y, snd x + snd y).
Definition gsub (x y : t) : t := (fst x - fst y, snd x - snd y).
Definition gneg (x : t) : t := (- fst x, - snd x).
Definition gmul (x y : t) : t :=
  (fst x * fst y - snd x * snd y, fst x * snd y + snd x * fst y).
Definition ginv (x : t) : t :=
  (fst x / (fst x * fst x + snd x * snd x),
   - snd x / (fst x * fst x + snd x * snd x)).
Definition gdiv (x y : t) : t := gmul x (ginv y).

Definition modulus (z : t) : Q := qsqrt (re z * re z + im z * im z)%Q.

(** The principal square root. *)
Definition gsqrt (z : t) : t :=
  let m := modulus z in
  let a := qsqrt ((m + re z) / 2)%Q in
  let b := qsqrt ((m - re z) / 2)%Q in
  (Q2Qc a, Q2Qc (if Qle_bool 0 (im z) then b else (- b)%Q)).

Definition gexp (z : t) : t :=
  (Q2Qc (qexp (re z) * qcos (im z))%Q, Q2Qc (qexp (re z) * qsin (im z))%Q).

#[global] Instance scalar : NumpyScalar t := {|
  zero := (0, 0);
  one := (1, 0);
  imag_unit := (0, 1);
  lit_1e_10 := of_Q (1 # 10 ^ 10);
  add := gadd;
  sub := gsub;
  mul := gmul;
  div := gdiv;
  neg := gneg;
  conjugate := fun z => (fst z, - snd z);
  imag := fun z => (snd z, 0);
  np_abs := fun z => of_Q (modulus z);
  np_sqrt := gsqrt;
  np_exp := gexp;
  np_angle := fun z => of_Q (qatan2 (im z) (re z));
  np_isfinite := fun _ => true;
  lt := fun x y => Qlt_bool (re x) (re y);
  norm := fun v =>
    of_Q (qsqrt (fold_left (fun acc z => acc + (re z * re z + im z * im z))%Q v 0%Q))
|}.

End GaussQ.

(** *** Rationals with the special values of IEEE 754

    A real number is a rational, an infinity or a NaN; a complex number is
    a pair of them.  Products and quotients of complex numbers follow the
    formulas of numpy's complex128 loops (the quotient is Smith's).  A zero
    has no sign here: [x / 0] is [+inf] for a positive [x]. *)

Module XQ.

Import QLibm.
Local Open Scope Q_scope.

Inductive xreal : Type :=
| Fin (q : Q)
| PInf
| NInf
| NaN.

Definition fin (q : Q) : xreal := Fin (Qred q).

Definition sign (x : xreal) : Z :=
  match x with
  | Fin q => Z.sgn (Qnum q)
  | PInf => 1
  | NInf => -1
  | NaN => 0
  end.

Definition inf_of_sign (s : Z) : xreal :=
  match s with
  | Zpos _ => PInf
  | Zneg _ => NInf
  | Z0 => NaN
  end.

Definition rneg (x : xreal) : xreal :=
  match x with
  | Fin q => fin (- q)
  | PInf => NInf
  | NInf => PInf
  | NaN => NaN
  end.

Definition radd (x y : xreal) : xreal :=
  match x, y with
  | NaN, _ | _, NaN => NaN
  | Fin a, Fin b => fin (a + b)
  | PInf, NInf | NInf, PInf => NaN
  | PInf, _ | _, PInf => PInf
  | NInf, _ | _, NInf => NInf
  end.

Definition rsub (x y : xreal) : xreal := radd x (rneg y).

Definition rmul (x y : xreal) : xreal :=
  match x, y with
  | NaN, _ | _, NaN => NaN
  | Fin a, Fin b => fin (a * b)
  | _, _ => inf_of_sign (sign x * sign y)
  end.

Definition rdiv (x y : xreal) : xreal :=
  match x, y with
  | NaN, _ | _, NaN => NaN
  | Fin a, Fin b =>
      if Qeq_bool b 0 then inf_of_sign (sign x) else fin (a / b)
  | Fin _, _ => Fin 0
  | _, Fin b => if Qeq_bool b 0 then x else inf_of_sign (sign x * sign y)
  | _, _ => NaN
  end.

Definition rabs (x : xreal) : xreal :=
  match x with
  | Fin q => fin (Qabs q)
  | PInf | NInf => PInf
  | NaN => NaN
  end.

Definition rsqrt (x : xreal) : xreal :=
  match x with
  | Fin q => if Qle_bool 0 q then Fin (qsqrt q) else NaN
  | PInf => PInf
  | NInf | NaN => NaN
  end.

Definition rlt (x y : xreal) : bool :=
  match x, y with
  | NaN, _ | _, NaN => false
  | Fin a, Fin b => Qlt_bool a b
  | PInf, _ | _, NInf => false
  | NInf, _ | _, PInf => true
  end.

Definition rle (x y : xreal) : bool :=
  match x, y with
  | NaN, _ | _, NaN => false
  | _, _ => negb (rlt y x)
  end.

Definition is_fin (x : xreal) : bool :=
  match x with Fin _ => true | _ => false end.

Definition is_nan (x : xreal) : bool :=
  match x with NaN => true | _ => false end.

Definition is_inf (x : xreal) : bool :=
  match x with PInf | NInf => true | _ => false end.

(** [arctan2 y x] with the special values of C99. *)
Definition ratan2 (y x : xreal) : xreal :=
  match y, x with
  | NaN, _ | _, NaN => NaN
  | Fin b, Fin a => Fin (qatan2 b a)
  | Fin b, PInf => Fin 0
  | Fin b, NInf => if Qle_bool 0 b then fin pi else fin (- pi)
  | PInf, Fin _ => fin (pi / 2)
  | NInf, Fin _ => fin (- (pi / 2))
  | PInf, PInf => fin (pi / 4)
  | NInf, PInf => fin (- (pi / 4))
  | PInf, NInf => fin (3 * pi / 4)
  | NInf, NInf => fin (- (3 * pi / 4))
  end.

Definition t : Type := (xreal * xreal)%type.

Definition of_Q (q : Q) : t := (fin q, Fin 0).
Definition nan : t := (NaN, NaN).

Definition cadd (x y : t) : t := (radd (fst x) (fst y), radd (snd x) (snd y)).
Definition csub (x y : t) : t := (rsub (fst x) (fst y), rsub (snd x) (snd y)).
Definition cneg (x : t) : t := (rneg (fst x), rneg (snd x)).

Definition cmul (x y : t) : t :=
  (rsub (rmul (fst x) (fst y)) (rmul (snd x) (snd y)),
   radd (rmul (fst x) (snd y)) (rmul (snd x) (fst y))).

Definition cdiv (x y : t) : t :=
  let '(ar, ai) := x in
  let '(br, bi) := y in
  if rle (rabs bi) (rabs br) then
    if rle (rabs br) (Fin 0) && rle (rabs bi) (Fin 0)
    then (rdiv ar (rabs br), rdiv ai (rabs br))
    else
      let rat := rdiv bi br in
      let scl := rdiv (Fin 1) (radd br (rmul bi rat)) in
      (rmul (radd ar (rmul ai rat)) scl, rmul (rsub ai (rmul ar rat)) scl)
  else
    let rat := rdiv br bi in
    let scl := rdiv (Fin 1) (radd bi (rmul br rat)) in
    (rmul (radd (rmul ar rat) ai) scl, rmul (rsub (rmul ai rat) ar) scl).

(** [hypot]: an infinite component wins over a NaN. *)
Definition cabs (z : t) : xreal :=
  if is_inf (fst z) || is_inf (snd z) then PInf
  else rsqrt (radd (rmul (fst z) (fst z)) (rmul (snd z) (snd z))).

(** The principal square root of a finite number; a number with an
    infinite or NaN component is sent to NaN, but for [+inf]. *)
Definition csqrt (z : t) : t :=
  match z with
  | (Fin a, Fin b) =>
      let m := qsqrt (a * a + b * b) in
      let c := qsqrt ((m + a) / 2) in
      let d := qsqrt ((m - a) / 2) in
      (Fin c, fin (if Qle_bool 0 b then d else - d))
  | (PInf, Fin _) => (PInf, Fin 0)
  | _ => nan
  end.

Definition cexp (z : t) : t :=
  match z with
  | (Fin a, Fin b) => (fin (qexp a * qcos b), fin (qexp a * qsin b))
  | _ => nan
  end.

#[global] Instance scalar : NumpyScalar t := {|
  zero := (Fin 0, Fin 0);
  one := (Fin 1, Fin 0);
  imag_unit := (Fin 0, Fin 1);
  lit_1e_10 := of_Q (1 # 10 ^ 10);
  add := cadd;
  sub := csub;
  mul := cmul;
  div := cdiv;
  neg := cneg;
  conjugate := fun z => (fst z, rneg (snd z));
  imag := fun z => (snd z, Fin 0);
  np_abs := fun z => (cabs z, Fin 0);
  np_sqrt := csqrt;
  np_exp := cexp;
  np_angle := fun z => (ratan2 (snd z) (fst z), Fin 0);
  np_isfinite := fun z => is_fin (fst z) && is_fin (snd z);
  lt := fun x y => rlt (fst x) (fst y);
  norm := fun v =>
    (rsqrt (fold_left (fun acc z =>
              radd acc (radd (rmul (fst z) (fst z)) (rmul (snd z) (snd z)))) v (Fin 0)),
     Fin 0)
|}.

End XQ.

(** ** The weights as the specification words them *)

Section WeightSpec.

Context {C : Type} `{NumpyScalar C}.


(** [np.sqrt(a**2 + b**2)], the quantity the Givens rotation divides by. *)
Definition givens_norm (a b : C) : C := np_sqrt (add (mul a a) (mul b b)).

(** The parts of [pencil] by name: the scaled arrays, the pencil before
    balancing (lines 16-28) and the scaling vector [s] (line 34). *)
Definition scaled (v : list C) : list C := map (fun a => div a (norm v)) v.

Definition unbalanced_pencil (nodes weights coef : list C) : matrix C :=
  set_col_slice 1 0 (scaled weights)
    (set_row_slice 0 1 (scaled coef)
       (set_block 1 1 (np_diag nodes)
          (np_zeros (length nodes + 1) (length nodes + 1)))).

Definition balancing_scales (weights coef : list C) : list C :=
  one :: map (fun wa => if lt zero (np_abs (snd wa))
                        then np_sqrt (np_abs (div (fst wa) (snd wa)))
                        else one)
             (combine (scaled weights) (scaled coef)).

End WeightSpec.

(** ** Inputs used to evaluate the code *)

Module Inputs.

Local Open Scope Q_scope.

Definition x (q : Q) : XQ.t := XQ.of_Q q.
Definition g (q : Q) : GaussQ.t := GaussQ.of_Q q.

(** The nodes [-1, 0, 1], their weights [0.5, -1, 0.5] and the values at
    the nodes of [(x - 0.2)(x + 0.3)]. *)
Definition nodes3 : list XQ.t := [x (-1); x 0; x 1].
Definition basis3 : LagrangePolynomialBasis XQ.t :=
  Basis nodes3 [x (1 # 2); x (-1); x (1 # 2)].
Definition coef3 : list XQ.t := [x (84 # 100); x (-6 # 100); x (104 # 100)].

End Inputs.

(** ** [polynomial.py]: [Polynomial] *)

(** What [V @ coef] evaluates to: a scalar for two one-dimensional arrays,
    a one-dimensional array for a matrix and a vector. *)
Inductive npvalue (C : Type) : Type :=
| Scalar (c : C)
| Array1 (v : list C).

Arguments Scalar {C} c.
Arguments Array1 {C} v.

Record Polynomial (C : Type) : Type := MkPolynomial {
  poly_basis : LagrangePolynomialBasis C;
  poly_coef : list C
}.

Arguments MkPolynomial {C} poly_basis poly_coef.
Arguments poly_basis {C} _.
Arguments poly_coef {C} _.

Section PolynomialClass.

Context {C : Type} `{NumpyScalar C}.

(** [Polynomial.__init__(self, basis, coef)]: the object keeps copies. *)
Definition Polynomial_init (basis : LagrangePolynomialBasis C) (coef : list C)
    : Polynomial C :=
  MkPolynomial basis coef.

Definition dot (u v : list C) : C :=
  np_sum (map (fun p => mul (fst p) (snd p)) (combine u v)).

(** [V @ coef]: numpy refuses operands whose lengths do not agree. *)
Definition matmul_vector (V : varray C) (coef : list C) : result (npvalue C) :=
  match V with
  | Vec v =>
      if length v =? length coef then Ok (Scalar (dot v coef)) else Raise ValueError
  | Mat m =>
      if forallb (fun row => length row =? length coef) m
      then Ok (Array1 (map (fun row => dot row coef) m))
      else Raise ValueError
  end.

(** [Polynomial.__call__(self, X)] *)
Definition Polynomial_call (self : Polynomial C) (X : ndarray C) : result (npvalue C) :=
  V <- vandermonde (poly_basis self) X ;;
  matmul_vector V (poly_coef self).

(** [Polynomial.eval(self, X)] *)
Definition Polynomial_eval (self : Polynomial C) (X : ndarray C) : result (npvalue C) :=
  V <- vandermonde (poly_basis self) X ;;
  matmul_vector V (poly_coef self).

End PolynomialClass.

(** ** Inputs for the further properties *)

Module MoreInputs.

Import Inputs.

(** A namespace in which the three names are bound: a [hessenberg] that
    returns its argument with the identity as unitary factor, and an
    [eigvals] that returns two finite numbers and a NaN between them. *)
Definition bound_globals : globals XQ.t :=
  Globals (Some (fun A => Ok (A, np_eye (nrows A))))
          (Some (fun _ _ => Ok [x 1; XQ.nan; x 2]))
          (Some tt).

(** A 3 x 3 matrix whose only entry that is not zero is [C0[1,0] = 1]. *)
Definition pencil0 : matrix XQ.t :=
  Matrix 3 3 (fun i j => match i, j with 1, 0 => x 1 | _, _ => x 0 end).

Definition gnodes : list GaussQ.t := [g 0; g 1; g 3].
Definition gweights : list GaussQ.t := [g 1; g (-2); g 1].
Definition gcoef : list GaussQ.t := [g 4; g 1; g 9].

End MoreInputs.

(** *** Integers that wrap, floats and complex numbers

    An array built from Python integers has the dtype int64: sums,
    differences and products of two such numbers wrap around modulo 2^64,
    and a quotient ([true_divide]) is a float.  A float is an extended real
    of [XQ], a complex number a pair of them; an operation on numbers of two
    kinds promotes the lower kind. *)

Module NP64.

Import QLibm XQ.
Local Open Scope Z_scope.

Inductive t : Type :=
| I64 (z : Z)
| F64 (x : xreal)
| C128 (re im : xreal).

(** Two's complement wrap-around to 64 bits. *)
Definition wrap (z : Z) : Z := (z + 2 ^ 63) mod 2 ^ 64 - 2 ^ 63.

Definition real_part (a : t) : xreal :=
  match a with
  | I64 z => fin (inject_Z z)
  | F64 x => x
  | C128 re _ => re
  end.

Definition to_complex (a : t) : XQ.t :=
  match a with
  | C128 re im => (re, im)
  | _ => (real_part a, Fin 0)
  end.

Definition of_complex (c : XQ.t) : t := C128 (fst c) (snd c).

Definition promote (on_int : Z -> Z -> t) (on_real : xreal -> xreal -> xreal)
    (on_complex : XQ.t -> XQ.t -> XQ.t) (a b : t) : t :=
  match a, b with
  | I64 x, I64 y => on_int x y
  | C128 _ _, _ | _, C128 _ _ => of_complex (on_complex (to_complex a) (to_complex b))
  | _, _ => F64 (on_real (real_part a) (real_part b))
  end.

Definition real_exp (x : xreal) : xreal :=
  match x with
  | Fin q => fin (qexp q)
  | PInf => PInf
  | NInf => Fin 0
  | NaN => NaN
  end.

#[global] Instance scalar : NumpyScalar t := {|
  zero := I64 0;
  one := I64 1;
  imag_unit := C128 (Fin 0) (Fin 1);
  lit_1e_10 := F64 (fin (1 # 10 ^ 10));
  add := promote (fun x y => I64 (wrap (x + y))) radd cadd;
  sub := promote (fun x y => I64 (wrap (x - y))) rsub csub;
  mul := promote (fun x y => I64 (wrap (x * y))) rmul cmul;
  div := promote (fun x y => F64 (rdiv (fin (inject_Z x)) (fin (inject_Z y)))) rdiv cdiv;
  neg := fun a =>
    match a with
    | I64 z => I64 (wrap (- z))
    | F64 x => F64 (rneg x)
    | C128 re im => C128 (rneg re) (rneg im)
    end;
  conjugate := fun a =>
    match a with
    | C128 re im => C128 re (rneg im)
    | _ => a
    end;
  imag := fun a =>
    match a with
    | I64 _ => I64 0
    | F64 _ => F64 (Fin 0)
    | C128 _ im => F64 im
    end;
  np_abs := fun a =>
    match a with
    | I64 z => I64 (wrap (Z.abs z))
    | F64 x => F64 (rabs x)
    | C128 re im => F64 (cabs (re, im))
    end;
  np_sqrt := fun a =>
    match a with
    | C128 re im => of_complex (csqrt (re, im))
    | _ => F64 (rsqrt (real_part a))
    end;
  np_exp := fun a =>
    match a with
    | C128 re im => of_complex (cexp (re, im))
    | _ => F64 (real_exp (real_part a))
    end;
  np_angle := fun a => F64 (ratan2 (snd (to_complex a)) (fst (to_complex a)));
  np_isfinite := fun a => is_fin (fst (to_complex a)) && is_fin (snd (to_complex a));
  lt := fun a b => rlt (real_part a) (real_part b);
  norm := fun v =>
    F64 (rsqrt (fold_left (fun acc a =>
                  radd acc (radd (rmul (fst (to_complex a)) (fst (to_complex a)))
                                 (rmul (snd (to_complex a)) (snd (to_complex a)))))
               v (Fin 0)))
|}.


End NP64.


(** * Properties *)

(** ** The Gaussian rationals are an exact field *)

Module GaussQFacts.

Import GaussQ.
Local Open Scope Qc_scope.

Lemma sum_of_squares_zero (a b : Qc) : a * a + b * b = 0 -> a = 0 /\ b = 0.
Proof.
  intros E.
  assert (E' : (this a * this a + this b * this b == 0)%Q).
  { apply (f_equal this) in E. unfold Qcplus, Qcmult, Q2Qc, this in E.
    rewrite <- (Qred_correct (_ + _)%Q).
    rewrite <- (Qred_correct (this a * this a)), <- (Qred_correct (this b * this b)).
    unfold this. rewrite E. reflexivity. }
  split; apply Qc_is_canon; change (this (Q2Qc 0)) with 0%Q; nra.
Qed.

Lemma exact : ExactArithmetic t.
Proof.
  unfold ExactArithmetic; cbn.
  constructor.
  - constructor; intros; unfold gadd, gmul, gsub, gneg; cbn;
      try (destruct x as [a b]); try (destruct y as [c d]);
      try (destruct z as [e f]); cbn; f_equal; try ring.
  - intros E. inversion E.
  - intros [a b] [c d]. unfold gdiv, gmul, ginv; cbn. f_equal; ring.
  - intros [a b] Hp. unfold gdiv, gmul, ginv; cbn.
    assert (a * a + b * b <> 0).
    { intros E. apply sum_of_squares_zero in E as [-> ->]. now apply Hp. }
    f_equal; field; assumption.
Qed.

End GaussQFacts.

(** ** Control flow: which exception a call ends with *)

(** The exceptions a call of [lagrange_roots] can end with in the module
    as it is written. *)
Inductive unbound_error : exn -> Prop :=
| ue_dimensions :
    unbound_error
      (AssertionError "Dimensions of nodes, weights, and coef should be the same")
| ue_index : unbound_error IndexError
| ue_real : unbound_error (AssertionError "C0[1,0]: %g + I %g")
| ue_hessenberg : unbound_error (NameError "hessenberg")
| ue_warnings : unbound_error (NameError "warnings").

Section ControlFlow.

Context {C : Type} `{NumpyScalar C}.

Lemma item_raises (M : matrix C) (i j : nat) (e : exn) :
  item M i j = Raise e -> e = IndexError.
Proof. unfold item. destruct (_ && _); congruence. Qed.

Lemma assert_raises (c : bool) (msg : string) (e : exn) :
  assert c msg = Raise e -> e = AssertionError msg.
Proof. unfold assert. destruct c; congruence. Qed.

Lemma fallback_branch_unbound (C0 C1 : matrix C) (coef : list C) :
  fallback_branch module_globals C0 C1 coef = Raise (NameError "warnings").
Proof. reflexivity. Qed.

Lemma deflation_branch_unbound (n : nat) (C0 C1 : matrix C) :
  deflation_branch module_globals n C0 C1 =
    (z <- item C0 1 0 ;;
     assert (lt (np_abs (imag z)) lit_1e_10) "C0[1,0]: %g + I %g" ;;;
     Raise (NameError "hessenberg")).
Proof.
  unfold deflation_branch.
  destruct (item C0 1 0) as [z|e]; cbn; [|reflexivity].
  destruct (assert _ _); reflexivity.
Qed.

Lemma deflation_branch_unbound_cases (n : nat) (C0 C1 : matrix C) :
  exists e, deflation_branch module_globals n C0 C1 = Raise e /\ unbound_error e.
Proof.
  rewrite deflation_branch_unbound.
  destruct (item C0 1 0) as [z|e] eqn:Ez; cbn.
  - destruct (assert (lt (np_abs (imag z)) lit_1e_10) "C0[1,0]: %g + I %g")
      as [[]|e] eqn:Ea; cbn.
    + eexists; split; [reflexivity|constructor].
    + apply assert_raises in Ea as ->. eexists; split; [reflexivity|constructor].
  - apply item_raises in Ez as ->. eexists; split; [reflexivity|constructor].
Qed.

Lemma lagrange_roots_unbound (nodes weights coef : list C) (deflation : bool) :
  exists e, value (lagrange_roots module_globals nodes weights coef deflation) = Raise e
            /\ unbound_error e.
Proof.
  unfold lagrange_roots.
  destruct (assert _ _) as [[]|e] eqn:Ea.
  2:{ apply assert_raises in Ea as ->. eexists; split; [reflexivity|constructor]. }
  destruct (pencil nodes weights coef) as [[C0 C1] coef'].
  destruct (item C0 1 0) as [z|e] eqn:Ez.
  2:{ apply item_raises in Ez as ->. eexists; split; [reflexivity|constructor]. }
  destruct (np_isfinite (np_angle z)); cbn [value].
  - destruct deflation.
    + apply deflation_branch_unbound_cases.
    + eexists; split; [reflexivity|constructor].
  - eexists; split; [reflexivity|constructor].
Qed.

Lemma roots_unbound_never_returns (self : LagrangePolynomialBasis C) (coef : list C)
    (deflation : bool) :
  returns (value (roots module_globals self coef deflation)) = false.
Proof.
  unfold roots.
  destruct (lagrange_roots_unbound (nodes self) (weights self) coef deflation)
    as [e [-> _]].
  reflexivity.
Qed.

(** With every name bound, the [else:] branch does what its last three
    lines say. *)
Lemma fallback_branch_bound (g : globals C) (C0 C1 : matrix C) (coef : list C)
    (ev : matrix C -> matrix C -> result (list C)) (ew : list C) :
  g_warnings g = Some tt -> g_eigvals g = Some ev -> ev C0 C1 = Ok ew ->
  fallback_branch g C0 C1 coef =
    if (Z.of_nat (length (filter np_isfinite ew)) =? Z.of_nat (length coef) - 1)%Z
    then Ok (filter np_isfinite ew)
    else Raise (AssertionError "Error: too many infinite eigenvalues encountered").
Proof.
  intros Hw He Hev. unfold fallback_branch. rewrite Hw, He. cbn. rewrite Hev. cbn.
  destruct (_ =? _)%Z; reflexivity.
Qed.

(** A pencil of one node: [H1] is 1 x 1 and [H1[1,0]] does not exist. *)
Lemma givens_single (H1 : matrix C) : nrows H1 = 1 -> returns (givens 1 H1) = false.
Proof.
  intros E. unfold givens, item. rewrite E.
  destruct (_ && _); reflexivity.
Qed.

Lemma deflation_branch_single (g : globals C) (C0 C1 : matrix C) :
  returns (deflation_branch g 1 C0 C1) = false.
Proof.
  unfold deflation_branch.
  destruct (item C0 1 0) as [z|]; [cbn|reflexivity].
  destruct (assert _ _) as [[]|]; [cbn|reflexivity].
  destruct (g_hessenberg g) as [h|]; [cbn|reflexivity].
  destruct (h _) as [[H1 P1]|]; [cbn|reflexivity].
  destruct (assign_block _ _ _ _) as [G3|]; [cbn|reflexivity].
  match goal with |- context [givens 1 ?M] =>
    pose proof (givens_single M eq_refl) as Hg; destruct (givens 1 M) end.
  - discriminate.
  - reflexivity.
Qed.

Lemma hstack_vec (cols : list (list C)) (V : varray C) :
  np_hstack cols = Ok V -> exists v, V = Vec v.
Proof. destruct cols; intros E; inversion E; eauto. Qed.

Lemma vandermonde_raises (self : LagrangePolynomialBasis C) (X : ndarray C) :
  returns (vandermonde self X) = false.
Proof.
  unfold vandermonde.
  destruct (py_len X) as [n|]; [cbn|reflexivity].
  destruct (assert _ _) as [[]|]; [cbn|reflexivity].
  destruct (np_hstack _) as [V|] eqn:E; [cbn|reflexivity].
  apply hstack_vec in E as [v ->]. reflexivity.
Qed.

Lemma init_lengths (a : ndarray C) (self : LagrangePolynomialBasis C) :
  init a = Ok self ->
  nodes self = flatten a /\ length (weights self) = length (nodes self).
Proof.
  unfold init. destruct (py_len a); [cbn|discriminate].
  destruct (assert _ _) as [[]|]; [cbn|discriminate].
  intros E. inversion E; subst; cbn. split; [reflexivity|].
  now rewrite !length_map, length_seq.
Qed.

Lemma vandermonde_axis_error (self : LagrangePolynomialBasis C) (x : list C) :
  nodes self <> [] -> weights self <> [] ->
  vandermonde self (array1 x) = Raise AxisError.
Proof.
  intros Hn Hw. unfold vandermonde. cbn. rewrite Nat.eqb_refl. cbn.
  destruct (nodes self); [congruence|]. destruct (weights self); [congruence|].
  reflexivity.
Qed.

Lemma init_shape (a : ndarray C) :
  init a =
    match shape a with
    | [] => Raise TypeError
    | d :: _ =>
        if d =? length (data a)
        then Ok (Basis (data a)
                   (map (fun p => div one p)
                      (map (weight_denominator (data a)) (seq 0 (length (data a))))))
        else Raise (AssertionError "Input must be one-dimensional")
    end.
Proof.
  unfold init, py_len, flatten. destruct (shape a) as [|d sh]; [reflexivity|cbn].
  destruct (d =? length (data a)); reflexivity.
Qed.

Lemma pencil_rows (nodes weights coef : list C) :
  length nodes = length weights ->
  length nodes = length coef ->
  nrows (fst (fst (pencil nodes weights coef))) = length nodes + 1 /\
  ncols (fst (fst (pencil nodes weights coef))) = length nodes + 1.
Proof.
  intros Hw Hc. unfold pencil. cbn [fst nrows ncols matmul np_diag].
  rewrite !length_map. cbn [length]. rewrite !length_map, length_combine, !length_map.
  rewrite <- Hw, <- Hc, Nat.min_id. lia.
Qed.

(** The entry [C0[1,0]] after [C0[1:,0] *= f]. *)
Lemma rotated_entry (f : C -> C) (C0 : matrix C) :
  2 <= nrows C0 -> 1 <= ncols C0 ->
  item (set_col_slice 1 0 (map f (col0_from1 C0)) C0) 1 0 = Ok (f (entry C0 1 0)).
Proof.
  intros Hr Hc. unfold item, set_col_slice, col0_from1. cbn [nrows ncols entry].
  replace ((1 <? nrows C0) && (0 <? ncols C0)) with true
    by (symmetry; apply andb_true_iff; split; apply Nat.ltb_lt; lia).
  rewrite !length_map, length_seq.
  replace (1 <? 1 + (nrows C0 - 1)) with true by (symmetry; apply Nat.ltb_lt; lia).
  cbn [Nat.eqb Nat.leb andb Nat.sub].
  destruct (nrows C0 - 1) as [|m] eqn:E; [lia|]. reflexivity.
Qed.

Lemma lagrange_roots_unbound_value (nodes weights coef : list C) :
  length nodes = length weights ->
  length nodes = length coef ->
  nodes <> [] ->
  value (lagrange_roots module_globals nodes weights coef false) =
    Raise (NameError "warnings") /\
  exists z,
    item (fst (fst (pencil nodes weights coef))) 1 0 = Ok z /\
    value (lagrange_roots module_globals nodes weights coef true) =
      if np_isfinite (np_angle z)
      then if lt (np_abs (imag (mul z (np_exp (mul (neg imag_unit) (np_angle z))))))
                 lit_1e_10
           then Raise (NameError "hessenberg")
           else Raise (AssertionError "C0[1,0]: %g + I %g")
      else Raise (NameError "warnings").
Proof.
  intros Hw Hc Hne.
  destruct (pencil_rows nodes weights coef Hw Hc) as [Hr Hcol].
  assert (Hn : 1 <= length nodes) by (destruct nodes; [congruence|cbn; lia]).
  unfold lagrange_roots. rewrite <- Hw, <- Hc, Nat.eqb_refl. cbn [andb assert].
  destruct (pencil nodes weights coef) as [[C0 C1] coef']. cbn [fst] in *.
  assert (Hz : item C0 1 0 = Ok (entry C0 1 0)).
  { unfold item. rewrite Hr, Hcol.
    replace ((1 <? length nodes + 1) && (0 <? length nodes + 1)) with true
      by (symmetry; apply andb_true_iff; split; apply Nat.ltb_lt; lia).
    reflexivity. }
  rewrite Hz. split.
  - destruct (np_isfinite _); reflexivity.
  - exists (entry C0 1 0). split; [reflexivity|].
    destruct (np_isfinite (np_angle (entry C0 1 0))); cbn [value]; [|reflexivity].
    rewrite deflation_branch_unbound, rotated_entry by lia. cbn [bind].
    unfold assert. destruct (lt _ _); reflexivity.
Qed.

End ControlFlow.

(** ** The claims about control flow *)

Section Claims.

Context {C : Type} `{NumpyScalar C}.

(** C10.  The module binds none of [hessenberg], [eigvals], [warnings].
    The branch [if deflation:] evaluates [C0[1,0]] and its assertion and
    then raises [NameError] at [hessenberg]; the branch [else:] raises
    [NameError] at [warnings]; so every call of [lagrange_roots] ends with an
    exception: one of the three raised before an eigenvalue stage, or one
    of the two [NameError]s.  A call with arrays of one length and at least
    one node reaches an eigenvalue stage unless the assertion on [C0[1,0]]
    fails: with [deflation = False] it raises [NameError] at [warnings];
    with [deflation = True] it raises [NameError] at [warnings] when the
    angle is not finite, [NameError] at [hessenberg] when the angle is
    finite and the rotated entry passes the assertion, and the assertion
    otherwise. *)
Theorem lagrange_roots_raises_NameError :
  (g_hessenberg (@module_globals C) = None /\
   g_eigvals (@module_globals C) = None /\
   g_warnings (@module_globals C) = None) /\
  (forall (n : nat) (C0 C1 : matrix C),
     deflation_branch module_globals n C0 C1 =
       (z <- item C0 1 0 ;;
        assert (lt (np_abs (imag z)) lit_1e_10) "C0[1,0]: %g + I %g" ;;;
        Raise (NameError "hessenberg"))) /\
  (forall (C0 C1 : matrix C) (coef : list C),
     fallback_branch module_globals C0 C1 coef = Raise (NameError "warnings")) /\
  (forall (nodes weights coef : list C) (deflation : bool),
     exists e,
       value (lagrange_roots module_globals nodes weights coef deflation) = Raise e
       /\ unbound_error e) /\
  (forall (nodes weights coef : list C),
     length nodes = length weights ->
     length nodes = length coef ->
     nodes <> [] ->
     value (lagrange_roots module_globals nodes weights coef false) =
       Raise (NameError "warnings") /\
     exists z,
       item (fst (fst (pencil nodes weights coef))) 1 0 = Ok z /\
       value (lagrange_roots module_globals nodes weights coef true) =
         if np_isfinite (np_angle z)
         then if lt (np_abs (imag (mul z (np_exp (mul (neg imag_unit) (np_angle z))))))
                    lit_1e_10
              then Raise (NameError "hessenberg")
              else Raise (AssertionError "C0[1,0]: %g + I %g")
         else Raise (NameError "warnings")).
Proof.
  split; [repeat split|].
  split; [apply deflation_branch_unbound|].
  split; [apply fallback_branch_unbound|].
  split; [apply lagrange_roots_unbound|].
  apply lagrange_roots_unbound_value.
Qed.

(** C4.  [vandermonde] returns no matrix: for every basis and every array
    of points the call ends with an exception ([np.hstack] of
    one-dimensional columns is one-dimensional, and [np.all(..., axis = 1)]
    refuses it). *)
Theorem vandermonde_never_returns (self : LagrangePolynomialBasis C) (X : ndarray C) :
  returns (vandermonde self X) = false.
Proof. apply vandermonde_raises. Qed.

(** C3.  For a basis constructed from nodes, evaluating at the single point
    [X[j]] raises [AxisError] instead of returning the one-hot row. *)
Theorem vandermonde_at_node_raises
    (a : ndarray C) (self : LagrangePolynomialBasis C) (j : nat) :
  init a = Ok self ->
  j < length (nodes self) ->
  vandermonde self (array1 [elt (nodes self) j]) = Raise AxisError.
Proof.
  intros Hinit Hj. apply init_lengths in Hinit as [_ Hlen].
  apply vandermonde_axis_error.
  - destruct (nodes self); [cbn in Hj; lia|discriminate].
  - destruct (weights self); [cbn in Hlen; lia|discriminate].
Qed.

(** C2.  In the module as written the branch [else:] never reaches the
    eigenvalue solve, the filter or the count assertion: it raises
    [NameError] at [warnings], whatever the pencil. *)
Theorem fallback_raises_before_solving
    (nodes weights coef : list C) (C0 C1 : matrix C) :
  fallback_branch module_globals C0 C1 coef = Raise (NameError "warnings") /\
  returns (value (lagrange_roots module_globals nodes weights coef false)) = false /\
  value (lagrange_roots module_globals nodes weights coef false) <>
    Raise (AssertionError "Error: too many infinite eigenvalues encountered").
Proof.
  split; [reflexivity|].
  destruct (lagrange_roots_unbound nodes weights coef false) as [e [-> He]].
  split; [reflexivity|].
  intros E. inversion E; subst. inversion He.
Qed.

(** C1.  [Basis.roots] returns no root set in the module as written, with
    or without deflation, whatever the basis and the coefficients. *)
Theorem roots_never_returns (self : LagrangePolynomialBasis C) (coef : list C)
    (deflation : bool) :
  returns (value (roots module_globals self coef deflation)) = false.
Proof. apply roots_unbound_never_returns. Qed.

(** C5.  A basis of one node is constructed, and [roots] on it raises in the
    module as written under both settings of [deflation]; with every name
    bound to anything the branch [if deflation:] still cannot return for one
    node, because [H1] is 1 x 1 and [H1[1,0]] is out of bounds. *)
Theorem single_node_roots_raise (x c : C) :
  exists self,
    init (array1 [x]) = Ok self /\
    returns (value (roots module_globals self [c] true)) = false /\
    value (roots module_globals self [c] false) = Raise (NameError "warnings") /\
    (forall (g : globals C) (C0 C1 : matrix C),
       returns (deflation_branch g 1 C0 C1) = false).
Proof.
  eexists. split; [reflexivity|].
  split; [apply roots_unbound_never_returns|].
  split; [|apply deflation_branch_single].
  unfold roots, lagrange_roots. cbn.
  destruct (np_isfinite _); reflexivity.
Qed.

(** C7, as amended.  For a well-formed input, construction raises
    [TypeError] exactly when the input has no axis; it raises the assertion
    "Input must be one-dimensional" exactly when the input has an axis and
    its number of entries differs from the extent of its first axis; it
    succeeds exactly when the input has an axis and its number of entries
    is the extent of its first axis, which holds for every one-dimensional
    input and for every input whose other axes have extent 1, such as a
    column of shape (N, 1); when it succeeds the nodes are the flattened
    input and there are as many weights as nodes. *)
Theorem init_dimension_check (a : ndarray C) :
  well_formed a ->
  (init a = Raise TypeError <-> ndim a = 0) /\
  (init a = Raise (AssertionError "Input must be one-dimensional") <->
   exists d sh, shape a = d :: sh /\ size_of (d :: sh) <> d) /\
  (returns (init a) = true <->
   exists d sh, shape a = d :: sh /\ size_of (d :: sh) = d) /\
  (ndim a = 1 -> returns (init a) = true) /\
  (forall N, shape a = [N; 1] -> returns (init a) = true) /\
  (forall self, init a = Ok self ->
     nodes self = flatten a /\ length (weights self) = length (flatten a)).
Proof.
  intros Hwf. unfold well_formed in Hwf. rewrite init_shape. unfold ndim.
  destruct (shape a) as [|d sh] eqn:Es.
  - split; [split; reflexivity|].
    split; [split; [discriminate|intros [d [sh [E _]]]; discriminate]|].
    split; [split; [discriminate|intros [d [sh [E _]]]; discriminate]|].
    repeat split; discriminate.
  - rewrite Hwf.
    split; [split; [destruct (d =? _); discriminate|discriminate]|].
    split.
    { split.
      - intros E. exists d, sh. split; [reflexivity|].
        destruct (Nat.eqb_spec d (size_of (d :: sh))); [discriminate|congruence].
      - intros [d' [sh' [E Hne]]]. inversion E; subst d' sh'.
        destruct (Nat.eqb_spec d (size_of (d :: sh))); [congruence|reflexivity]. }
    split.
    { split.
      - intros E. exists d, sh. split; [reflexivity|].
        destruct (Nat.eqb_spec d (size_of (d :: sh))); [congruence|discriminate].
      - intros [d' [sh' [E He]]]. inversion E; subst d' sh'.
        destruct (Nat.eqb_spec d (size_of (d :: sh))); [reflexivity|congruence]. }
    split.
    { intros Hn. destruct sh; [|discriminate]. cbn.
      replace (d =? d * 1) with true by (symmetry; apply Nat.eqb_eq; lia). reflexivity. }
    split.
    { intros N E. inversion E; subst. cbn.
      replace (N =? N * 1) with true by (symmetry; apply Nat.eqb_eq; lia). reflexivity. }
    intros self. destruct (d =? _); intros E; inversion E. cbn.
    split; [reflexivity|]. now rewrite !length_map, length_seq.
Qed.

(** C8, as amended.  When the phase angle of the balanced entry [C0[1,0]]
    is not finite, the call prints "Rotation failed" with the angle and
    continues in the branch [else:], whatever [deflation] was: nothing is
    raised by the failed rotation itself. *)
Theorem rotation_failure_falls_back (g : globals C) (nodes weights coef : list C)
    (deflation : bool) (C0 C1 : matrix C) (coef' : list C) (z : C) :
  length nodes = length weights ->
  length nodes = length coef ->
  pencil nodes weights coef = (C0, C1, coef') ->
  item C0 1 0 = Ok z ->
  np_isfinite (np_angle z) = false ->
  lagrange_roots g nodes weights coef deflation =
    Outcome [("Rotation failed", np_angle z)] (fallback_branch g C0 C1 coef').
Proof.
  intros Hw Hc Hp Hz Hfin. unfold lagrange_roots.
  rewrite <- Hw, <- Hc, Nat.eqb_refl. cbn [andb assert].
  rewrite Hp, Hz, Hfin. reflexivity.
Qed.

End Claims.

(** ** Exact arithmetic: the weights and the Givens rotation *)

Section Exact.

Context {C : Type} `{NumpyScalar C}.
Hypothesis exact : ExactArithmetic C.

Let scalar_field_theory :
  field_theory zero one add mul sub neg div (fun x => div one x) (@eq C) := exact.

Add Field scalar_field : scalar_field_theory.












(** *** The Givens rotation *)

Lemma fold_add_zeros (l : list nat) (f : nat -> C) (acc : C) :
  (forall k, In k l -> f k = zero) -> fold_left add (map f l) acc = acc.
Proof.
  revert acc. induction l as [|k l IH]; intros acc Hz; cbn; [reflexivity|].
  rewrite IH by (intros; apply Hz; now right).
  rewrite Hz by now left. ring.
Qed.

(** C9.  With [a = H1[0,0]], [b = H1[1,0]] and [r = sqrt(a^2 + b^2)] not
    zero, the rotation [G5] that the code builds has the block
    [[conj(a/r), conj(b/r)], [-b/r, a/r]] on rows and columns 0 and 1, and
    the entry (1,0) of [G5.dot(H1)] is zero.  In exact arithmetic. *)
Theorem givens_annihilates (n : nat) (H1 G5 : matrix C) :
  nrows H1 = n ->
  givens n H1 = Ok G5 ->
  givens_norm (entry H1 0 0) (entry H1 1 0) <> zero ->
  (entry G5 0 0 = conjugate (div (entry H1 0 0) (givens_norm (entry H1 0 0) (entry H1 1 0))) /\
   entry G5 0 1 = conjugate (div (entry H1 1 0) (givens_norm (entry H1 0 0) (entry H1 1 0))) /\
   entry G5 1 0 = neg (div (entry H1 1 0) (givens_norm (entry H1 0 0) (entry H1 1 0))) /\
   entry G5 1 1 = div (entry H1 0 0) (givens_norm (entry H1 0 0) (entry H1 1 0))) /\
  entry (matmul G5 H1) 1 0 = zero.
Proof.
  intros Hn Hg Hr.
  set (a := entry H1 0 0) in *. set (b := entry H1 1 0) in *.
  set (r := givens_norm a b) in *.
  unfold givens, item in Hg. fold a b in Hg. fold (givens_norm a b) in Hg. fold r in Hg.
  destruct ((0 <? nrows H1) && (0 <? ncols H1)) eqn:E0; cbn [bind] in Hg; [|discriminate].
  destruct ((1 <? nrows H1) && (0 <? ncols H1)) eqn:E1; cbn [bind] in Hg; [|discriminate].
  apply andb_prop in E1 as [E1 _]. apply Nat.ltb_lt in E1.
  inversion Hg; subst G5; clear Hg.
  assert (Hn2 : 2 <= n) by lia.
  split.
  - cbn. destruct n as [|[|n']]; [lia|lia|]. cbn. repeat split; reflexivity.
  - cbn. destruct n as [|[|n']]; [lia|lia|]. cbn.
    unfold np_sum. cbn.
    rewrite fold_add_zeros.
    + fold a b. fold (givens_norm a b). fold r. clearbody r. clearbody a b. field. exact Hr.
    + intros k Hk. apply in_seq in Hk.
      destruct k as [|[|k]]; [lia|lia|]. cbn.
      ring.
Qed.

End Exact.

(** ** The code on concrete inputs *)

Module Evaluation.

Import Inputs.

(** The basis on the nodes [-1, 0, 1] has the weights [0.5, -1, 0.5]; asking
    for the roots of [(x - 0.2)(x + 0.3)] raises [NameError] on both
    paths. *)
Lemma roots_of_quadratic_raise :
  init (array1 nodes3) = Ok basis3 /\
  roots module_globals basis3 coef3 true = Outcome [] (Raise (NameError "hessenberg")) /\
  roots module_globals basis3 coef3 false = Outcome [] (Raise (NameError "warnings")).
Proof. vm_compute. repeat split. Qed.

(** Evaluating the basis on [-1, 0, 1] at its node [0] raises. *)
Lemma vandermonde_at_node_raises_witness :
  init (array1 nodes3) = Ok basis3 /\
  1 < length (nodes basis3) /\
  vandermonde basis3 (array1 [elt (nodes basis3) 1]) = Raise AxisError.
Proof.
  assert (Hinit : init (array1 nodes3) = Ok basis3) by (vm_compute; reflexivity).
  assert (Hj : 1 < length (nodes basis3)) by (cbn; lia).
  split; [exact Hinit|]. split; [exact Hj|].
  exact (vandermonde_at_node_raises (array1 nodes3) basis3 1 Hinit Hj).
Defined.

(** A column of shape (2, 1) is not one-dimensional and is accepted. *)
Lemma init_accepts_column :
  let col := NdArray [2; 1] [x 0; x 1] in
  well_formed col /\ ndim col = 2 /\ returns (init col) = true.
Proof. vm_compute. repeat split. Qed.

(** The column of shape (2, 1) is accepted, and its nodes are its two
    entries. *)
Lemma init_dimension_check_witness :
  let col := NdArray [2; 1] [x 0; x 1] in
  well_formed col /\
  returns (init col) = true /\
  (forall self, init col = Ok self ->
     nodes self = [x 0; x 1] /\ length (weights self) = 2).
Proof.
  intros col.
  assert (Hwf : well_formed col) by (vm_compute; reflexivity).
  destruct (init_dimension_check col Hwf) as [_ [_ [_ [_ [Hcol Hnodes]]]]].
  split; [exact Hwf|]. split; [exact (Hcol 2 eq_refl)|exact Hnodes].
Defined.

(** With the weights and the coefficients [0, 1] the balanced entry
    [C0[1,0]] is exactly zero; its angle is 0, which is finite; nothing is
    printed and the call runs the branch [if deflation:] (it ends at
    [hessenberg], where the branch [else:] ends at [warnings]). *)
Lemma zero_entry_keeps_deflation :
  let nodes := [x 0; x 1] in
  let weights := [x 0; x 1] in
  let coef := [x 0; x 1] in
  item (fst (fst (pencil nodes weights coef))) 1 0 = Ok zero /\
  np_isfinite (np_angle (zero : XQ.t)) = true /\
  lagrange_roots module_globals nodes weights coef true =
    Outcome [] (Raise (NameError "hessenberg")) /\
  lagrange_roots module_globals nodes weights coef false =
    Outcome [] (Raise (NameError "warnings")).
Proof. vm_compute. repeat split. Qed.

(** With all weights zero the scaled weights are NaN, and so is the angle. *)
Lemma rotation_failure_falls_back_witness :
  lagrange_roots module_globals [x 0; x 1] [x 0; x 0] [x 1; x 1] true =
    Outcome [("Rotation failed", (XQ.NaN, XQ.Fin 0))] (Raise (NameError "warnings")).
Proof.
  pose (p := pencil [x 0; x 1] [x 0; x 0] [x 1; x 1]).
  refine (eq_trans
    (rotation_failure_falls_back module_globals [x 0; x 1] [x 0; x 0] [x 1; x 1] true
       (fst (fst p)) (snd (fst p)) (snd p) (XQ.NaN, XQ.NaN) eq_refl eq_refl _ _ _) _).
  - unfold p. destruct (pencil _ _ _) as [[C0 C1] c]. reflexivity.
  - vm_compute. reflexivity.
  - vm_compute. reflexivity.
  - vm_compute. reflexivity.
Defined.

(** The basis on [-1, 0, 1] with the values of [(x - 0.2)(x + 0.3)]: the
    call without deflation raises [NameError] at [warnings]. *)
Lemma lagrange_roots_raises_NameError_witness :
  value (lagrange_roots module_globals nodes3 (weights basis3) coef3 false) =
    Raise (NameError "warnings").
Proof.
  refine (proj1 (proj2 (proj2 (proj2 (proj2 lagrange_roots_raises_NameError)))
                   nodes3 (weights basis3) coef3 eq_refl eq_refl _)).
  discriminate.
Defined.




(** [H1 = [[3, 0], [4, 0]]]: [r = 5]. *)
Lemma givens_annihilates_witness :
  let H1 := Matrix 2 2 (fun i j => match i, j with
                                   | 0, 0 => g 3 | 1, 0 => g 4 | _, _ => g 0 end) in
  exists G5, givens 2 H1 = Ok G5 /\ entry (matmul G5 H1) 1 0 = zero.
Proof.
  intros H1. eexists. split; [reflexivity|].
  refine (proj2 (givens_annihilates GaussQFacts.exact 2 H1 _ eq_refl eq_refl _)).
  intros E. apply (f_equal (fun z => Qnum (this (fst z)))) in E.
  vm_compute in E. discriminate.
Defined.

End Evaluation.

(** * Further properties of the code *)

(** ** Errors, shapes and what a returning call returns *)

Section More.

Context {C : Type} `{NumpyScalar C}.

(** When the three arrays do not have one length, [lagrange_roots] raises the
    dimension assertion and prints nothing, whatever the names are bound to
    and whatever [deflation] is. *)
Theorem dimension_mismatch_raises (g : globals C) (nodes weights coef : list C)
    (deflation : bool) :
  length nodes <> length weights \/ length nodes <> length coef ->
  lagrange_roots g nodes weights coef deflation =
    Outcome [] (Raise (AssertionError
                         "Dimensions of nodes, weights, and coef should be the same")).
Proof.
  intros Hne. unfold lagrange_roots.
  replace ((length nodes =? length weights) && (length nodes =? length coef)) with false.
  - reflexivity.
  - symmetry. apply andb_false_iff.
    destruct Hne as [Hne|Hne]; [left|right]; now apply Nat.eqb_neq.
Qed.


Lemma length_combine_same {A B : Type} (l : list A) (l' : list B) :
  length l = length l' -> length (combine l l') = length l.
Proof. intros E. rewrite length_combine. lia. Qed.

Lemma pencil_extents (nodes weights coef : list C) (C0 C1 : matrix C) (coef' : list C) :
  length nodes = length weights ->
  length nodes = length coef ->
  pencil nodes weights coef = (C0, C1, coef') ->
  nrows C0 = length nodes + 1 /\ ncols C0 = length nodes + 1 /\
  nrows C1 = length nodes + 1 /\ ncols C1 = length nodes + 1 /\
  length coef' = length nodes /\
  returns (item C0 1 0) = negb (length nodes =? 0).
Proof.
  intros Hw Hc Hp. unfold pencil in Hp. inversion Hp; subst; clear Hp.
  unfold item. cbn [nrows ncols matmul np_diag set_item np_eye].
  rewrite !length_map. cbn [length]. rewrite !length_map, length_combine, !length_map.
  rewrite <- Hw, <- Hc, Nat.min_id.
  repeat split; try lia.
  destruct (length nodes); reflexivity.
Qed.

(** For arrays of one length N the pencil [(C0, C1)] is (N+1) x (N+1)
    after scaling and balancing, the scaled [coef] keeps its length, and
    [C0[1,0]] exists exactly when N is not 0. *)
Theorem pencil_shape (nodes weights coef : list C) (C0 C1 : matrix C) (coef' : list C) :
  length nodes = length weights ->
  length nodes = length coef ->
  pencil nodes weights coef = (C0, C1, coef') ->
  nrows C0 = length nodes + 1 /\ ncols C0 = length nodes + 1 /\
  nrows C1 = length nodes + 1 /\ ncols C1 = length nodes + 1 /\
  length coef' = length nodes /\
  returns (item C0 1 0) = negb (length nodes =? 0).
Proof. apply pencil_extents. Qed.

(** Empty arrays pass the dimension check, the pencil is 1 x 1 and the call
    raises [IndexError] at [C0[1,0]] for every binding of the names; in the
    module as written no other input ends with [IndexError]. *)
Theorem index_error_iff_empty (nodes weights coef : list C) (deflation : bool) :
  (forall g : globals C,
     lagrange_roots g [] [] [] deflation = Outcome [] (Raise IndexError)) /\
  (value (lagrange_roots module_globals nodes weights coef deflation) = Raise IndexError
   <-> nodes = [] /\ weights = [] /\ coef = []).
Proof.
  split; [reflexivity|]. split.
  2:{ intros [-> [-> ->]]. reflexivity. }
  intros E. unfold lagrange_roots in E.
  destruct (Nat.eqb_spec (length nodes) (length weights)) as [Hw|Hw];
    [|cbn in E; discriminate].
  destruct (Nat.eqb_spec (length nodes) (length coef)) as [Hc|Hc];
    [|cbn in E; discriminate].
  cbn [andb assert] in E.
  destruct (pencil nodes weights coef) as [[C0 C1] coef'] eqn:Hp.
  destruct (pencil_extents nodes weights coef C0 C1 coef' Hw Hc Hp)
    as [Hr [Hcol [_ [_ [_ Hitem]]]]].
  destruct (length nodes) as [|n] eqn:Hn.
  - destruct nodes; [|discriminate]. destruct weights; [|discriminate].
    destruct coef; [|discriminate]. repeat split.
  - exfalso. destruct (item C0 1 0) as [z|] eqn:Ez; [|discriminate].
    destruct (np_isfinite (np_angle z)); cbn [value] in E; [|discriminate].
    destruct deflation; [|discriminate].
    rewrite deflation_branch_unbound in E.
    unfold item in E. cbn [nrows ncols set_col_slice] in E.
    rewrite Hr, Hcol in E.
    replace ((1 <? S n + 1) && (0 <? S n + 1)) with true in E
      by (symmetry; apply andb_true_iff; split; apply Nat.ltb_lt; lia).
    cbn [bind] in E.
    match type of E with context [assert ?c ?m] => destruct (assert c m) as [[]|e] eqn:Ea end;
      cbn [bind] in E; [discriminate|].
    apply assert_raises in Ea. subst e. discriminate.
Qed.
(** When the branch [if deflation:] returns, there are at least two nodes
    and the value is what [eigvals] returned on a pencil [(H2, B2)] of
    (N-1) x (N-1) matrices. *)
Theorem deflation_returns_reduced_pencil (g : globals C) (n : nat) (C0 C1 : matrix C)
    (r : list C) :
  deflation_branch g n C0 C1 = Ok r ->
  2 <= n /\
  exists ev H2 B2,
    g_eigvals g = Some ev /\ ev H2 B2 = Ok r /\
    nrows H2 = n - 1 /\ ncols H2 = n - 1 /\ nrows B2 = n - 1 /\ ncols B2 = n - 1.
Proof.
  unfold deflation_branch.
  destruct (item C0 1 0) as [z|]; cbn [bind]; [|discriminate].
  destruct (assert _ _) as [[]|]; cbn [bind]; [|discriminate].
  destruct (g_hessenberg g) as [h|]; cbn [bind load_global]; [|discriminate].
  destruct (h _) as [[H1 P1]|]; cbn [bind snd]; [|discriminate].
  destruct (assign_block _ _ _ _) as [G3|] eqn:EG3; cbn [bind]; [|discriminate].
  unfold assign_block in EG3.
  destruct (_ && _) in EG3; [|discriminate]. inversion EG3; subst G3; clear EG3.
  match goal with |- context [givens n ?M] => set (H1' := M) end.
  destruct (givens n H1') as [G5|] eqn:EG5; cbn [bind]; [|discriminate].
  destruct (g_eigvals g) as [ev|]; cbn [bind load_global]; [|discriminate].
  intros Hr.
  assert (Hn : 2 <= n).
  { unfold givens, item in EG5.
    destruct ((0 <? nrows H1') && (0 <? ncols H1')); cbn [bind] in EG5; [|discriminate].
    destruct ((1 <? nrows H1') && (0 <? ncols H1')) eqn:E1; cbn [bind] in EG5; [|discriminate].
    apply andb_prop in E1 as [E1 _]. apply Nat.ltb_lt in E1.
    subst H1'. cbn in E1. lia. }
  split; [exact Hn|].
  eexists ev, _, _. split; [reflexivity|]. split; [exact Hr|].
  unfold givens in EG5.
  destruct (item H1' 0 0); cbn [bind] in EG5; [|discriminate].
  destruct (item H1' 1 0); cbn [bind] in EG5; [|discriminate].
  inversion EG5; subst G5. subst H1'. cbn. repeat split; lia.
Qed.

(** When the branch [else:] returns, the value is the finite eigenvalues of
    the pencil [(C0, C1)], in the order of [eigvals], and there are
    len(coef) - 1 of them. *)
Theorem fallback_returns_finite_eigenvalues (g : globals C) (C0 C1 : matrix C)
    (coef r : list C) :
  fallback_branch g C0 C1 coef = Ok r ->
  exists ev ew,
    g_eigvals g = Some ev /\ ev C0 C1 = Ok ew /\
    r = filter np_isfinite ew /\
    Forall (fun z => np_isfinite z = true) r /\
    length r + 1 = length coef.
Proof.
  unfold fallback_branch.
  destruct (g_warnings g); cbn [bind load_global]; [|discriminate].
  destruct (g_eigvals g) as [ev|]; cbn [bind load_global]; [|discriminate].
  destruct (ev C0 C1) as [ew|] eqn:Eev; cbn [bind]; [|discriminate].
  destruct (Z.eqb_spec (Z.of_nat (length (filter np_isfinite ew)))
              (Z.of_nat (length coef) - 1)) as [E|E]; cbn; [|discriminate].
  intros Hr. inversion Hr; subst r. exists ev, ew.
  split; [reflexivity|]. split; [exact Eev|]. split; [reflexivity|]. split.
  - apply Forall_forall. intros z Hz. now apply filter_In in Hz.
  - lia.
Qed.

(** Which exception [vandermonde] ends with when the points are a
    base-class array (an [ndarray], not a [numpy.matrix]): [TypeError] for
    an array without an axis, the assertion when the number of entries is
    not the first extent, [ValueError] for a basis with no node,
    [AxisError] otherwise. *)
Theorem vandermonde_exceptions (self : LagrangePolynomialBasis C) (X : ndarray C) :
  vandermonde self X =
    match shape X with
    | [] => Raise TypeError
    | d :: _ =>
        if negb (length (data X) =? d)
        then Raise (AssertionError "Input must be one dimensional")
        else match nodes self, weights self with
             | [], _ | _, [] => Raise ValueError
             | _, _ => Raise AxisError
             end
    end.
Proof.
  unfold vandermonde, py_len, flatten.
  destruct (shape X) as [|d sh]; [reflexivity|cbn [bind]].
  destruct (length (data X) =? d); cbn; [|reflexivity].
  destruct (nodes self) as [|n ns]; [reflexivity|].
  destruct (weights self); reflexivity.
Qed.

(** The call prints nothing, or the one line "Rotation failed" with an
    angle that is not finite; when it printed, the value is the one of the
    call with [deflation = False]. *)
Theorem prints_only_on_rotation_failure (g : globals C) (nodes weights coef : list C)
    (deflation : bool) :
  stdout (lagrange_roots g nodes weights coef deflation) = [] \/
  exists angle,
    stdout (lagrange_roots g nodes weights coef deflation) = [("Rotation failed", angle)]
    /\ np_isfinite angle = false
    /\ lagrange_roots g nodes weights coef deflation =
       lagrange_roots g nodes weights coef false.
Proof.
  unfold lagrange_roots.
  destruct (assert _ _) as [[]|]; [|left; reflexivity].
  destruct (pencil nodes weights coef) as [[C0 C1] coef'].
  destruct (item C0 1 0) as [z|]; [|left; reflexivity].
  destruct (np_isfinite (np_angle z)) eqn:E; [left; reflexivity|right].
  exists (np_angle z). repeat split. exact E.
Qed.

(** Evaluating a [Polynomial] over a Lagrange basis at points given as a
    base-class array (an [ndarray], not a [numpy.matrix]) returns no value:
    [__call__] and [eval] end with the exception of [vandermonde]. *)
Theorem polynomial_call_raises (basis : LagrangePolynomialBasis C) (coef : list C)
    (X : ndarray C) :
  exists e,
    vandermonde basis X = Raise e /\
    Polynomial_call (Polynomial_init basis coef) X = Raise e /\
    Polynomial_eval (Polynomial_init basis coef) X = Raise e.
Proof.
  unfold Polynomial_call, Polynomial_eval, Polynomial_init. cbn [poly_basis poly_coef].
  pose proof (vandermonde_raises basis X) as Hv.
  destruct (vandermonde basis X) as [V|e]; [discriminate|].
  exists e. repeat split.
Qed.

End More.

(** ** The transforms, in exact arithmetic *)

Section Similarity.

Context {C : Type} `{NumpyScalar C}.
Hypothesis exact : ExactArithmetic C.

Let similarity_field_theory :
  field_theory zero one add mul sub neg div (fun x => div one x) (@eq C) := exact.

Add Field similarity_field : similarity_field_theory.

Lemma fold_add_acc (l : list C) (a : C) : fold_left add l a = add a (np_sum l).
Proof.
  unfold np_sum. revert a. induction l as [|x l IH]; intros a; cbn.
  - ring.
  - rewrite IH, (IH (add zero x)). ring.
Qed.

Lemma np_sum_app (l1 l2 : list C) : np_sum (l1 ++ l2) = add (np_sum l1) (np_sum l2).
Proof. unfold np_sum at 1. rewrite fold_left_app. apply fold_add_acc. Qed.

Lemma np_sum_zeros (l : list nat) (f : nat -> C) :
  (forall k, In k l -> f k = zero) -> np_sum (map f l) = zero.
Proof. intros Hz. unfold np_sum. now apply fold_add_zeros. Qed.

(** A sum with one term that is not zero. *)
Lemma np_sum_single (n i : nat) (f : nat -> C) :
  i < n ->
  (forall k, k < n -> k <> i -> f k = zero) ->
  np_sum (map f (seq 0 n)) = f i.
Proof.
  intros Hi Hz. replace n with (i + (1 + (n - (i + 1)))) by lia.
  rewrite !seq_app, !map_app, !np_sum_app. cbn [seq map].
  rewrite np_sum_zeros, np_sum_zeros.
  - unfold np_sum. cbn. ring.
  - intros k Hk. apply in_seq in Hk. apply Hz; lia.
  - intros k Hk. apply in_seq in Hk. apply Hz; lia.
Qed.


Lemma elt_map (f : C -> C) (v : list C) (i : nat) :
  i < length v -> elt (map f v) i = f (elt v i).
Proof.
  intros Hi. unfold elt. rewrite (nth_indep _ zero (f zero)) by now rewrite length_map.
  apply map_nth.
Qed.

Lemma matmul_diag_l (v : list C) (A : matrix C) (i j : nat) :
  i < length v ->
  entry (matmul (np_diag v) A) i j = mul (elt v i) (entry A i j).
Proof.
  intros Hi. unfold matmul, np_diag. cbn [entry ncols nrows].
  rewrite (np_sum_single (length v) i) by
    (first [assumption | intros k Hk Hne; destruct (Nat.eqb_spec i k); [lia|ring]]).
  now rewrite Nat.eqb_refl.
Qed.

Lemma matmul_diag_r (v : list C) (A : matrix C) (i j : nat) :
  j < length v -> ncols A = length v ->
  entry (matmul A (np_diag v)) i j = mul (entry A i j) (elt v j).
Proof.
  intros Hj Hc. unfold matmul, np_diag. cbn [entry ncols nrows]. rewrite Hc.
  rewrite (np_sum_single (length v) j) by
    (first [assumption | intros k Hk Hne; destruct (Nat.eqb_spec k j); [lia|ring]]).
  now rewrite Nat.eqb_refl.
Qed.

Lemma balanced_entry (nodes weights coef : list C) (i j : nat) :
  length nodes = length weights ->
  length nodes = length coef ->
  i <= length nodes -> j <= length nodes ->
  entry (fst (fst (pencil nodes weights coef))) i j =
    mul (mul (div one (elt (balancing_scales weights coef) i))
             (entry (unbalanced_pencil nodes weights coef) i j))
        (elt (balancing_scales weights coef) j).
Proof.
  intros Hw Hc Hi Hj.
  assert (Hs : length (balancing_scales weights coef) = length nodes + 1).
  { unfold balancing_scales, scaled. cbn [length].
    rewrite length_map, length_combine, !length_map. lia. }
  unfold pencil. cbn [fst].
  change (entry
            (matmul
               (matmul (np_diag (map (fun sj => div one sj)
                                     (balancing_scales weights coef)))
                       (unbalanced_pencil nodes weights coef))
               (np_diag (balancing_scales weights coef))) i j =
          mul (mul (div one (elt (balancing_scales weights coef) i))
                   (entry (unbalanced_pencil nodes weights coef) i j))
              (elt (balancing_scales weights coef) j)).
  rewrite matmul_diag_r; [|rewrite Hs; lia|cbn [ncols matmul np_diag unbalanced_pencil set_col_slice set_row_slice set_block np_zeros]; lia].
  rewrite matmul_diag_l by (rewrite length_map, Hs; lia).
  rewrite elt_map by (rewrite Hs; lia). reflexivity.
Qed.

(** Balancing is the similarity transform with [diag(s)]: entry (i,j) of the
    balanced [C0] is [(1/s[i]) * A[i,j] * s[j]] for the pencil [A] before
    balancing.  In exact arithmetic. *)
Theorem balancing_is_diagonal_similarity (nodes weights coef : list C) (i j : nat) :
  length nodes = length weights ->
  length nodes = length coef ->
  i <= length nodes -> j <= length nodes ->
  entry (fst (fst (pencil nodes weights coef))) i j =
    mul (mul (div one (elt (balancing_scales weights coef) i))
             (entry (unbalanced_pencil nodes weights coef) i j))
        (elt (balancing_scales weights coef) j).
Proof. apply balanced_entry. Qed.


(** Balancing leaves the block [diag(nodes)] as it is in the rows whose scale
    is not zero, and the corner entry zero.  In exact arithmetic. *)
Theorem balancing_keeps_nodes (nodes weights coef : list C) (i j : nat) :
  length nodes = length weights ->
  length nodes = length coef ->
  i < length nodes -> j < length nodes ->
  elt (balancing_scales weights coef) (S i) <> zero ->
  entry (fst (fst (pencil nodes weights coef))) (S i) (S j) =
    (if i =? j then elt nodes i else zero)
  /\ entry (fst (fst (pencil nodes weights coef))) 0 0 = zero.
Proof.
  intros Hw Hc Hi Hj Hs.
  rewrite !balanced_entry by lia.
  split.
  - replace (entry (unbalanced_pencil nodes weights coef) (S i) (S j))
      with (if i =? j then elt nodes i else zero).
    + destruct (i =? j) eqn:E.
      * apply Nat.eqb_eq in E. subst j. field. exact Hs.
      * ring.
    + unfold unbalanced_pencil, set_col_slice, set_row_slice, set_block, np_diag, np_zeros.
      cbn [entry nrows ncols]. cbn [Nat.eqb andb Nat.leb].
      replace (S i <? 1 + length nodes) with true by (symmetry; apply Nat.ltb_lt; lia).
      replace (S j <? 1 + length nodes) with true by (symmetry; apply Nat.ltb_lt; lia).
      cbn [andb]. replace (S i - 1) with i by lia. replace (S j - 1) with j by lia.
      reflexivity.
  - replace (entry (unbalanced_pencil nodes weights coef) 0 0) with zero.
    + ring.
    + unfold unbalanced_pencil, set_col_slice, set_row_slice, set_block, np_diag, np_zeros.
      cbn [entry nrows ncols]. cbn [Nat.eqb andb Nat.leb]. reflexivity.
Qed.

(** Multiplying by the swap [G4] and dropping row and column 0 keeps row 0
    of [M] as row 0 and drops row 1: entry (i,j) of the result is
    [M[0, j+1]] for [i = 0] and [M[i+1, j+1]] below.  In exact
    arithmetic. *)
Theorem swap_then_drop (n : nat) (M : matrix C) (i j : nat) :
  nrows M = n + 1 -> i < n ->
  entry (from1 (matmul (set_block 0 0 (mat2 zero one one zero) (np_eye (n + 1))) M)) i j =
    entry M (if i =? 0 then 0 else S i) (S j).
Proof.
  intros Hr Hi.
  unfold from1, matmul, set_block, np_eye, mat2. cbn [entry nrows ncols].
  destruct i as [|i].
  - rewrite (np_sum_single (n + 1) 0); [|lia|].
    + cbn. ring.
    + intros k Hk Hne. destruct k as [|[|k]]; [lia| |]; cbn; ring.
  - rewrite (np_sum_single (n + 1) (S (S i))); [|lia|].
    + cbn. rewrite Nat.eqb_refl. ring.
    + intros k Hk Hne. destruct k as [|[|k]]; cbn.
      * ring.
      * ring.
      * destruct (Nat.eqb_spec i k); [lia|ring].
Qed.

Theorem givens_mixes_rows_0_and_1 (n : nat) (H1 G5 : matrix C) (i j : nat) :
  nrows H1 = n ->
  givens n H1 = Ok G5 ->
  2 <= i < n ->
  entry (matmul G5 H1) i j = entry H1 i j.
Proof.
  intros Hn Hg Hi. unfold givens in Hg.
  destruct (item H1 0 0); cbn [bind] in Hg; [|discriminate].
  destruct (item H1 1 0); cbn [bind] in Hg; [|discriminate].
  inversion Hg; subst G5; clear Hg.
  unfold matmul, set_block, np_eye, mat2. cbn [entry nrows ncols].
  destruct i as [|[|i]]; [lia|lia|].
  rewrite (np_sum_single n (S (S i))); [|lia|].
  - cbn. rewrite Nat.eqb_refl. ring.
  - intros k Hk Hne. destruct k as [|[|k]]; cbn; try ring.
    destruct (Nat.eqb_spec i k); [lia|ring].
Qed.

Lemma weight_denominator_shift (c : C) (xs : list C) (k : nat) :
  k < length xs ->
  weight_denominator (map (fun x => add x c) xs) k = weight_denominator xs k.
Proof.
  intros Hk. unfold weight_denominator.
  rewrite elt_map by assumption.
  rewrite firstn_map, skipn_map, !map_map.
  f_equal; f_equal; apply map_ext; intros x; ring.
Qed.

(** Adding one number to every node does not change the weights.  In exact
    arithmetic. *)
Theorem weights_translation_invariant (c : C) (xs : list C)
    (self shifted : LagrangePolynomialBasis C) :
  init (array1 xs) = Ok self ->
  init (array1 (map (fun x => add x c) xs)) = Ok shifted ->
  weights shifted = weights self.
Proof.
  rewrite !init_shape. cbn [shape data array1]. rewrite !Nat.eqb_refl.
  intros E1 E2. inversion E1; subst self. inversion E2; subst shifted. cbn [weights].
  rewrite length_map. f_equal. apply map_ext_in. intros k Hk. apply in_seq in Hk.
  apply weight_denominator_shift. lia.
Qed.

(** The bases of no node and of one node: no weight, and the weight 1.  In
    exact arithmetic. *)
Theorem init_small (x : C) :
  init (array1 ([] : list C)) = Ok (Basis [] []) /\
  init (array1 [x]) = Ok (Basis [x] [one]).
Proof.
  split; [reflexivity|].
  unfold init. cbn. unfold weight_denominator, np_prod. cbn.
  do 2 f_equal. f_equal. field. apply (F_1_neq_0 exact).
Qed.

End Similarity.

(** ** The further properties on concrete inputs *)

Module MoreEvaluation.

Import Inputs MoreInputs.

Lemma dimension_mismatch_raises_witness :
  lagrange_roots module_globals nodes3 [x 1; x 2] coef3 true =
    Outcome [] (Raise (AssertionError
                         "Dimensions of nodes, weights, and coef should be the same")).
Proof.
  apply (dimension_mismatch_raises module_globals nodes3 [x 1; x 2] coef3 true).
  left. cbn. lia.
Defined.


Lemma pencil_shape_witness :
  nrows (fst (fst (pencil nodes3 (weights basis3) coef3))) = 4.
Proof.
  pose (p := pencil nodes3 (weights basis3) coef3).
  refine (proj1 (pencil_shape nodes3 (weights basis3) coef3
                   (fst (fst p)) (snd (fst p)) (snd p) eq_refl eq_refl _)).
  unfold p. destruct (pencil _ _ _) as [[C0 C1] c]. reflexivity.
Defined.

Lemma fallback_returns_finite_eigenvalues_witness :
  fallback_branch bound_globals (np_eye 4) (np_eye 4) coef3 = Ok [x 1; x 2] /\
  exists ev ew,
    g_eigvals bound_globals = Some ev /\ ev (np_eye 4) (np_eye 4) = Ok ew /\
    [x 1; x 2] = filter np_isfinite ew /\
    Forall (fun z => np_isfinite z = true) [x 1; x 2] /\
    length [x 1; x 2] + 1 = length coef3.
Proof.
  assert (Hr : fallback_branch bound_globals (np_eye 4) (np_eye 4) coef3 = Ok [x 1; x 2])
    by (vm_compute; reflexivity).
  split; [exact Hr|].
  exact (fallback_returns_finite_eigenvalues bound_globals _ _ coef3 _ Hr).
Defined.


Lemma deflation_returns_reduced_pencil_witness :
  deflation_branch bound_globals 2 pencil0 (np_eye 3) = Ok [x 1; XQ.nan; x 2] /\ 2 <= 2.
Proof.
  assert (Hr : deflation_branch bound_globals 2 pencil0 (np_eye 3) = Ok [x 1; XQ.nan; x 2])
    by (vm_compute; reflexivity).
  split; [exact Hr|].
  exact (proj1 (deflation_returns_reduced_pencil bound_globals 2 _ _ _ Hr)).
Defined.

Lemma balancing_is_diagonal_similarity_witness :
  entry (fst (fst (pencil gnodes gweights gcoef))) 1 0 =
    mul (mul (div one (elt (balancing_scales gweights gcoef) 1))
             (entry (unbalanced_pencil gnodes gweights gcoef) 1 0))
        (elt (balancing_scales gweights gcoef) 0).
Proof.
  apply (balancing_is_diagonal_similarity GaussQFacts.exact gnodes gweights gcoef 1 0
           eq_refl eq_refl); unfold gnodes; cbn [length]; lia.
Defined.

Lemma balancing_keeps_nodes_witness :
  entry (fst (fst (pencil gnodes gweights gcoef))) 2 2 = elt gnodes 1.
Proof.
  refine (proj1 (balancing_keeps_nodes GaussQFacts.exact gnodes gweights gcoef 1 1
                   eq_refl eq_refl _ _ _)).
  - unfold gnodes; cbn [length]; lia.
  - unfold gnodes; cbn [length]; lia.
  - intros E. apply (f_equal (fun z => Qnum (this (fst z)))) in E.
    vm_compute in E. discriminate.
Defined.

Lemma swap_then_drop_witness :
  entry (from1 (matmul (set_block 0 0 (mat2 zero one one zero) (np_eye (2 + 1)))
                       (np_diag gnodes))) 0 0 =
    entry (np_diag gnodes) 0 1.
Proof.
  apply (swap_then_drop GaussQFacts.exact 2 (np_diag gnodes) 0 0); [reflexivity|lia].
Defined.

Lemma givens_mixes_rows_0_and_1_witness :
  let H1 := Matrix 3 3 (fun i j => match i, j with
                                   | 0, 0 => g 3 | 1, 0 => g 4 | _, _ => g 1 end) in
  exists G5, givens 3 H1 = Ok G5 /\ entry (matmul G5 H1) 2 1 = entry H1 2 1.
Proof.
  intros H1. eexists. split; [reflexivity|].
  apply (givens_mixes_rows_0_and_1 GaussQFacts.exact 3 H1 _ 2 1 eq_refl eq_refl). lia.
Defined.

Lemma weights_translation_invariant_witness :
  exists self shifted,
    init (array1 gnodes) = Ok self /\
    init (array1 (map (fun z => add z (g 5)) gnodes)) = Ok shifted /\
    weights shifted = weights self.
Proof.
  eexists. eexists. split; [reflexivity|]. split; [reflexivity|].
  exact (weights_translation_invariant GaussQFacts.exact (g 5) gnodes _ _ eq_refl eq_refl).
Defined.

Lemma init_small_witness :
  init (array1 [g 7]) = Ok (Basis [g 7] [one]).
Proof. exact (proj2 (init_small GaussQFacts.exact (g 7))). Defined.

End MoreEvaluation.
